(** * The TSP task of curriculum-tsp: curriculum controller, reward and mask update

    A shallow embedding of [src/tasks/tsp.py].

    - Python integers are unbounded, so they are [Z].
    - A method of [TSPCurriculum] mutates [self] and may raise; it is a
      computation in a state-and-exception monad whose state holds the
      curriculum object together with the store of the [TSPDataset] objects
      constructed so far.  A raise keeps the mutations made before it, as in
      Python.
    - A tensor is a shape together with its element function; a tensor
      operation that raises gives [None].
    - The arithmetic of float tensors is a parameter of [reward]; the
      theorems about tour length take the real numbers for it, and binary64
      floats serve for evaluation.
    - [update_mask] mutates its argument: the mask is an object in a store
      and the function takes and returns a reference. *)

From Stdlib Require Import Floats.
From Stdlib Require Import ZArith Lia Reals Lra.
From stdpp Require Import base option list gmap.

Local Open Scope Z_scope.

(** ** Python exceptions and the state-and-exception monad *)

Inductive exn : Set :=
| IndexError
| AssertionError
| AttributeError
| TypeError
| RuntimeError.

Inductive outcome (A : Type) : Type :=
| Ok (a : A)
| Raise (e : exn).
Arguments Ok {A} a.
Arguments Raise {A} e.

Definition M (S A : Type) : Type := S -> outcome A * S.

Module Py.
Section Monad.
Context {S : Type}.

Definition ret {A} (a : A) : M S A := fun s => (Ok a, s).

Definition bind {A B} (m : M S A) (k : A -> M S B) : M S B :=
  fun s =>
    match m s with
    | (Ok a, s') => k a s'
    | (Raise e, s') => (Raise e, s')
    end.

Definition raise {A} (e : exn) : M S A := fun s => (Raise e, s).

Definition get : M S S := fun s => (Ok s, s).

Definition modify (f : S -> S) : M S unit := fun s => (Ok tt, f s).

(** Attribute access or arithmetic on a value that may be [None]. *)
Definition not_none {A} (e : exn) (o : option A) : M S A :=
  match o with
  | Some a => ret a
  | None => raise e
  end.

(** The element [l[i]] of a Python list, when there is one: a negative
    index counts from the end, and there is none outside [-len, len). *)
Definition index {A} (l : list A) (i : Z) : option A :=
  let n := Z.of_nat (length l) in
  let j := if i <? 0 then n + i else i in
  if (0 <=? j) && (j <? n) then l !! Z.to_nat j else None.

(** [l[i]], which raises [IndexError] when there is no such element. *)
Definition getitem {A} (l : list A) (i : Z) : M S A :=
  not_none IndexError (index l i).
End Monad.
End Py.
Arguments Py.index {A} l i : simpl never.

(** stdpp's monad notations: [x ← m; k] and [m ;; k]. *)
#[export] Instance M_ret {S} : MRet (M S) := fun A => @Py.ret S A.
#[export] Instance M_bind {S} : MBind (M S) := fun A B k m => @Py.bind S A B m k.

(** ** Data model *)

Section Curriculum.
(** The distribution parameter is a tensor the curriculum only stores and
    hands to the dataset constructor. *)
Context {Param : Type}.

(** [class _TSPStage] *)
Record _TSPStage : Type := mk_TSPStage {
  stage_num_tiles : Z;
  stage_param : Param;
  stage_start : Z;
  stage_length : Z;
}.

(** [class TSPDataset]: an object is the record of the arguments its
    constructor was called with; the sampled nodes, the zero [dynamic]
    tensor and [size] are functions of them (through the external sampler
    [get_param_nodes]). *)
Record TSPDataset : Type := mk_TSPDataset {
  ds_num_nodes : Z;
  ds_num_samples : Z;
  ds_seed : Z;
  ds_num_tiles : Z;
  ds_param : Param;
}.

(** [class TSPCurriculum]; [_curr_dataset] is a reference into the store of
    dataset objects. *)
Record TSPCurriculum : Type := mk_TSPCurriculum {
  _num_nodes : Z;
  _num_samples : Z;
  _seed : Z;
  _stages : list _TSPStage;
  _curr_stage_index : option Z;
  _curr_stage : option _TSPStage;
  _curr_dataset : option nat;
  _curr_epoch : Z;
  _curr_len : Z;
  _finished : bool;
}.

(** The state a method runs in: [self] and the dataset objects constructed
    so far, in construction order (a reference is a position in it). *)
Record State : Type := mk_State {
  self : TSPCurriculum;
  datasets : list TSPDataset;
}.

(** *** Attribute assignment *)

Definition on_self (f : TSPCurriculum -> TSPCurriculum) : M State unit :=
  Py.modify (fun s => mk_State (f s.(self)) s.(datasets)).

Definition set_stages (v : list _TSPStage) (c : TSPCurriculum) :=
  mk_TSPCurriculum c.(_num_nodes) c.(_num_samples) c.(_seed) v
    c.(_curr_stage_index) c.(_curr_stage) c.(_curr_dataset)
    c.(_curr_epoch) c.(_curr_len) c.(_finished).

Definition set_curr_stage_index (v : option Z) (c : TSPCurriculum) :=
  mk_TSPCurriculum c.(_num_nodes) c.(_num_samples) c.(_seed) c.(_stages)
    v c.(_curr_stage) c.(_curr_dataset)
    c.(_curr_epoch) c.(_curr_len) c.(_finished).

Definition set_curr_stage (v : option _TSPStage) (c : TSPCurriculum) :=
  mk_TSPCurriculum c.(_num_nodes) c.(_num_samples) c.(_seed) c.(_stages)
    c.(_curr_stage_index) v c.(_curr_dataset)
    c.(_curr_epoch) c.(_curr_len) c.(_finished).

Definition set_curr_dataset (v : option nat) (c : TSPCurriculum) :=
  mk_TSPCurriculum c.(_num_nodes) c.(_num_samples) c.(_seed) c.(_stages)
    c.(_curr_stage_index) c.(_curr_stage) v
    c.(_curr_epoch) c.(_curr_len) c.(_finished).

Definition set_curr_epoch (v : Z) (c : TSPCurriculum) :=
  mk_TSPCurriculum c.(_num_nodes) c.(_num_samples) c.(_seed) c.(_stages)
    c.(_curr_stage_index) c.(_curr_stage) c.(_curr_dataset)
    v c.(_curr_len) c.(_finished).

Definition set_curr_len (v : Z) (c : TSPCurriculum) :=
  mk_TSPCurriculum c.(_num_nodes) c.(_num_samples) c.(_seed) c.(_stages)
    c.(_curr_stage_index) c.(_curr_stage) c.(_curr_dataset)
    c.(_curr_epoch) v c.(_finished).

Definition set_finished (v : bool) (c : TSPCurriculum) :=
  mk_TSPCurriculum c.(_num_nodes) c.(_num_samples) c.(_seed) c.(_stages)
    c.(_curr_stage_index) c.(_curr_stage) c.(_curr_dataset)
    c.(_curr_epoch) c.(_curr_len) v.

(** *** Methods *)

(** [TSPDataset(num_nodes=..., ...)]: constructs a dataset object and
    returns the reference to it. *)
Definition new_TSPDataset (num_nodes num_samples seed num_tiles : Z)
    (param : Param) : M State nat :=
  fun s =>
    (Ok (length s.(datasets)),
     mk_State s.(self)
       (s.(datasets) ++
        [mk_TSPDataset num_nodes num_samples seed num_tiles param])).

(** [TSPCurriculum.__init__] *)
Definition __init__ (num_nodes num_samples seed : Z) : TSPCurriculum :=
  {| _num_nodes := num_nodes;
     _num_samples := num_samples;
     _seed := seed;
     _stages := [];
     _curr_stage_index := None;
     _curr_stage := None;
     _curr_dataset := None;
     _curr_epoch := -1;
     _curr_len := 0;
     _finished := false |}.

(** [TSPCurriculum.increment_epoch] *)
Definition increment_epoch : M State unit :=
  s ← Py.get;
  on_self (set_curr_epoch (s.(self).(_curr_epoch) + 1)) ;;
  s ← Py.get;
  (if s.(self).(_curr_epoch) =? s.(self).(_curr_len)
   then on_self (set_finished true)
   else Py.ret tt) ;;
  s ← Py.get;
  stage ← Py.not_none AttributeError s.(self).(_curr_stage);
  let new_stage_epoch := stage.(stage_start) + stage.(stage_length) + 1 in
  if (s.(self).(_curr_epoch) =? new_stage_epoch)
       && negb s.(self).(_finished)
  then
    i ← Py.not_none TypeError s.(self).(_curr_stage_index);
    on_self (set_curr_stage_index (Some (i + 1))) ;;
    s ← Py.get;
    i ← Py.not_none TypeError s.(self).(_curr_stage_index);
    stage ← Py.getitem s.(self).(_stages) i;
    on_self (set_curr_stage (Some stage)) ;;
    s ← Py.get;
    stage ← Py.not_none AttributeError s.(self).(_curr_stage);
    d ← new_TSPDataset s.(self).(_num_nodes) s.(self).(_num_samples)
           s.(self).(_seed) stage.(stage_num_tiles) stage.(stage_param);
    on_self (set_curr_dataset (Some d))
  else Py.ret tt.

(** [TSPCurriculum.get_dataset] *)
Definition get_dataset : M State (option nat) :=
  s ← Py.get;
  if negb s.(self).(_finished)
  then Py.ret s.(self).(_curr_dataset)
  else Py.raise AssertionError.

(** [TSPCurriculum.add_stage] *)
Definition add_stage (num_tiles : Z) (param : Param) (num_epochs : Z)
    : M State unit :=
  s ← Py.get;
  let curr_stage :=
    mk_TSPStage num_tiles param s.(self).(_curr_len) num_epochs in
  on_self (fun c => set_stages (c.(_stages) ++ [curr_stage]) c) ;;
  on_self (fun c => set_curr_len (c.(_curr_len) + num_epochs) c).

(** [TSPCurriculum.start] *)
Definition start : M State unit :=
  on_self (set_curr_epoch 0) ;;
  on_self (set_curr_stage_index (Some 0)) ;;
  s ← Py.get;
  i ← Py.not_none TypeError s.(self).(_curr_stage_index);
  stage ← Py.getitem s.(self).(_stages) i;
  on_self (set_curr_stage (Some stage)) ;;
  s ← Py.get;
  stage ← Py.not_none AttributeError s.(self).(_curr_stage);
  d ← new_TSPDataset s.(self).(_num_nodes) s.(self).(_num_samples)
         s.(self).(_seed) stage.(stage_num_tiles) stage.(stage_param);
  on_self (set_curr_dataset (Some d)).

(** *** The trainer's use of the curriculum *)

(** One [add_stage] call per [(num_tiles, param, num_epochs)] triple. *)
Fixpoint add_stages (specs : list (Z * Param * Z)) : M State unit :=
  match specs with
  | [] => Py.ret tt
  | (num_tiles, param, num_epochs) :: rest =>
      add_stage num_tiles param num_epochs ;; add_stages rest
  end.

(** [k] calls of [increment_epoch] in a row. *)
Fixpoint increment_epochs (k : nat) : M State unit :=
  match k with
  | O => Py.ret tt
  | S k' => increment_epochs k' ;; increment_epoch
  end.

(** A fresh curriculum and an empty store. *)
Definition fresh (num_nodes num_samples seed : Z) : State :=
  mk_State (__init__ num_nodes num_samples seed) [].


(** ... and after [k] further calls of [increment_epoch()]. *)
Definition trained (num_nodes num_samples seed : Z)
    (specs : list (Z * Param * Z)) (k : nat) : outcome unit * State :=
  (add_stages specs ;; start ;; increment_epochs k)
    (fresh num_nodes num_samples seed).

(** The sum of the [num_epochs] of a list of stage triples. *)
Definition total_epochs (specs : list (Z * Param * Z)) : Z :=
  foldr (fun spec acc => spec.2 + acc) 0 specs.

End Curriculum.

Arguments _TSPStage : clear implicits.
Arguments TSPDataset : clear implicits.
Arguments TSPCurriculum : clear implicits.
Arguments State : clear implicits.

(** ** The curriculum: the states a started curriculum goes through *)

Section CurriculumModel.
Context {Param : Type}.
Implicit Types (specs : list (Z * Param * Z)) (s : State Param).

(** The stage objects [add_stage] builds for a list of triples when the
    cumulative length before the first of them is [base]. *)
Fixpoint stages_from (base : Z) specs : list (_TSPStage Param) :=
  match specs with
  | [] => []
  | (num_tiles, param, num_epochs) :: rest =>
      mk_TSPStage num_tiles param base num_epochs
        :: stages_from (base + num_epochs) rest
  end.




(** The first two statements of [increment_epoch]: the epoch advances
    and [finished] is set when it equals the cumulative length. *)
Definition bump (c : TSPCurriculum Param) : TSPCurriculum Param :=
  let c1 := set_curr_epoch (c.(_curr_epoch) + 1) c in
  if c1.(_curr_epoch) =? c1.(_curr_len) then set_finished true c1 else c1.



(** The sum of the lengths of a list of stage objects. *)
Definition sum_lengths (stages : list (_TSPStage Param)) : Z :=
  foldr (fun stage acc => stage.(stage_length) + acc) 0 stages.


End CurriculumModel.

(** ** Tensors *)

(** A dense tensor of rank 1, 2 or 3: its shape and its element at each
    index (read only at indices inside the shape). *)
Record Tensor1 (A : Type) : Type := mk_Tensor1 {
  size1 : nat;
  at1 : nat -> A;
}.
Arguments mk_Tensor1 {A} _ _.
Arguments size1 {A} _.
Arguments at1 {A} _ _.

Record Tensor2 (A : Type) : Type := mk_Tensor2 {
  size2 : nat * nat;
  at2 : nat -> nat -> A;
}.
Arguments mk_Tensor2 {A} _ _.
Arguments size2 {A} _.
Arguments at2 {A} _ _ _.

Record Tensor3 (A : Type) : Type := mk_Tensor3 {
  size3 : nat * nat * nat;
  at3 : nat -> nat -> nat -> A;
}.
Arguments mk_Tensor3 {A} _ _.
Arguments size3 {A} _.
Arguments at3 {A} _ _ _ _.

(** The arithmetic [reward] uses on the elements of a float tensor. *)
Class TorchFloat (F : Type) : Type := {
  fzero : F;
  fadd : F -> F -> F;
  fsub : F -> F -> F;
  (** [torch.pow(x, 2)] *)
  fpow2 : F -> F;
  fsqrt : F -> F;
}.

Module Torch.
Section Ops.
Context {A : Type}.

(** The elements of a tensor, in index order. *)
Definition to_list1 (t : Tensor1 A) : list A :=
  map (at1 t) (seq 0 (size1 t)).

Definition to_list2 (t : Tensor2 A) : list (list A) :=
  map (fun b => map (at2 t b) (seq 0 (size2 t).2)) (seq 0 (size2 t).1).

(** [torch.tensor(rows)] for nested lists: the shape is read off the
    first elements. *)
Definition of_list1 (d : A) (l : list A) : Tensor1 A :=
  mk_Tensor1 (length l) (fun i => nth i l d).

Definition of_list2 (d : A) (l : list (list A)) : Tensor2 A :=
  mk_Tensor2 (length l, length (hd [] l))
    (fun b k => nth k (nth b l []) d).

Definition of_list3 (d : A) (l : list (list (list A))) : Tensor3 A :=
  mk_Tensor3 (length l, length (hd [] l), length (hd [] (hd [] l)))
    (fun b c k => nth k (nth c (nth b l []) []) d).

(** [t.unsqueeze(1)] *)
Definition unsqueeze1_1 (t : Tensor1 A) : Tensor2 A :=
  mk_Tensor2 (size1 t, 1%nat) (fun b _ => at1 t b).

Definition unsqueeze2_1 (t : Tensor2 A) : Tensor3 A :=
  mk_Tensor3 ((size2 t).1, 1%nat, (size2 t).2) (fun b _ k => at2 t b k).

(** Expanding one dimension of size [src] to size [tgt]: the sizes are
    equal, or [src] is 1 and its only element is repeated; anything else
    is an error. *)
Definition expand_dim (src tgt : nat) : option (nat -> nat) :=
  if (src =? tgt)%nat then Some (fun i => i)
  else if (src =? 1)%nat then Some (fun _ => O)
  else None.

(** [t.expand_as(other)], with the shape of [other] *)
Definition expand_as (t : Tensor3 A) (shape : nat * nat * nat)
    : option (Tensor3 A) :=
  let '(b0, c0, k0) := size3 t in
  let '(b1, c1, k1) := shape in
  fb ← expand_dim b0 b1;
  fc ← expand_dim c0 c1;
  fk ← expand_dim k0 k1;
  Some (mk_Tensor3 shape (fun b c k => at3 t (fb b) (fc c) (fk k))).

(** [forall] over the indices of a shape, as the bounds check of an
    indexing kernel *)
Definition all2 (shape : nat * nat) (P : nat -> nat -> bool) : bool :=
  forallb (fun b => forallb (P b) (seq 0 shape.2)) (seq 0 shape.1).

Definition all3 (shape : nat * nat * nat) (P : nat -> nat -> nat -> bool)
    : bool :=
  forallb (fun b => all2 (shape.1.2, shape.2) (P b)) (seq 0 shape.1.1).

(** [torch.gather(input, 2, index)]: the result has the shape of [index]
    and [out[b][c][k] = input[b][c][index[b][c][k]]]; [index] must not
    exceed [input] in the other dimensions and its values must be indices
    into the last dimension of [input]. *)
Definition gather_2 (input : Tensor3 A) (index : Tensor3 Z)
    : option (Tensor3 A) :=
  let '(b0, c0, k0) := size3 input in
  let '(b1, c1, k1) := size3 index in
  if (b1 <=? b0)%nat && (c1 <=? c0)%nat
     && all3 (size3 index)
          (fun b c k => (0 <=? at3 index b c k)
                        && (at3 index b c k <? Z.of_nat k0))
  then
    Some (mk_Tensor3 (size3 index)
            (fun b c k => at3 input b c (Z.to_nat (at3 index b c k))))
  else None.

(** [t.permute(0, 2, 1)] *)
Definition permute_0_2_1 (t : Tensor3 A) : Tensor3 A :=
  let '(b, c, k) := size3 t in
  mk_Tensor3 (b, k, c) (fun b k c => at3 t b c k).

(** The slice [t[:, start:start+len]] of a tensor with enough rows *)
Definition narrow_1 (t : Tensor3 A) (start len : nat) : Tensor3 A :=
  let '(b, n, c) := size3 t in
  mk_Tensor3 (b, len, c) (fun b k c => at3 t b (start + k)%nat c).

(** [t[:, :1]], [t[:, :-1]] and [t[:, 1:]] with Python's clipping of
    slice bounds *)
Definition slice_to_1 (t : Tensor3 A) : Tensor3 A :=
  narrow_1 t 0 (Nat.min 1 (size3 t).1.2).

Definition slice_to_last (t : Tensor3 A) : Tensor3 A :=
  narrow_1 t 0 ((size3 t).1.2 - 1).

Definition slice_from_1 (t : Tensor3 A) : Tensor3 A :=
  narrow_1 t (Nat.min 1 (size3 t).1.2) ((size3 t).1.2 - 1).

(** [torch.cat((t1, t2), dim=1)]: the other dimensions must agree. *)
Definition cat_1 (t1 t2 : Tensor3 A) : option (Tensor3 A) :=
  let '(b1, n1, c1) := size3 t1 in
  let '(b2, n2, c2) := size3 t2 in
  if (b1 =? b2)%nat && (c1 =? c2)%nat then
    Some (mk_Tensor3 (b1, (n1 + n2)%nat, c1)
            (fun b k c =>
               if (k <? n1)%nat then at3 t1 b k c
               else at3 t2 b (k - n1)%nat c))
  else None.

(** An elementwise operation on two tensors of one shape (the only case
    [reward] meets; broadcasting of unequal shapes is not modelled and is
    an error here). *)
Definition zip_with3 (f : A -> A -> A) (t1 t2 : Tensor3 A)
    : option (Tensor3 A) :=
  let '(b1, n1, c1) := size3 t1 in
  let '(b2, n2, c2) := size3 t2 in
  if (b1 =? b2)%nat && (n1 =? n2)%nat && (c1 =? c2)%nat then
    Some (mk_Tensor3 (size3 t1) (fun b k c => f (at3 t1 b k c) (at3 t2 b k c)))
  else None.

Definition map3 (f : A -> A) (t : Tensor3 A) : Tensor3 A :=
  mk_Tensor3 (size3 t) (fun b k c => f (at3 t b k c)).

Definition map2 (f : A -> A) (t : Tensor2 A) : Tensor2 A :=
  mk_Tensor2 (size2 t) (fun b k => f (at2 t b k)).

(** [self.scatter_(1, index, value)]:
    [self[b][index[b][j]] = value] for every position [(b, j)] of [index];
    [index] must not have more rows than [self] and its values must be
    indices into dimension 1 of [self]. *)
Definition scatter_1 (self : Tensor2 A) (index : Tensor2 Z) (value : A)
    : option (Tensor2 A) :=
  let '(b0, n0) := size2 self in
  let '(b1, n1) := size2 index in
  if (b1 <=? b0)%nat
     && all2 (size2 index)
          (fun b j => (0 <=? at2 index b j) && (at2 index b j <? Z.of_nat n0))
  then
    Some (mk_Tensor2 (size2 self)
            (fun b n =>
               if (b <? b1)%nat
                  && existsb (fun j => Z.to_nat (at2 index b j) =? n)%nat
                       (seq 0 n1)
               then value
               else at2 self b n))
  else None.

End Ops.

Section Float.
Context {F : Type} `{TorchFloat F}.

(** The sum of [f 0], ..., [f (n - 1)], added up from the left. *)
Definition fsum (n : nat) (f : nat -> F) : F :=
  foldl fadd fzero (map f (seq 0 n)).

(** [torch.sum(t, dim=2)] and [t.sum(1)] *)
Definition sum_2 (t : Tensor3 F) : Tensor2 F :=
  let '(b, n, c) := size3 t in
  mk_Tensor2 (b, n) (fun b k => fsum c (at3 t b k)).

Definition sum_1 (t : Tensor2 F) : Tensor1 F :=
  let '(b, n) := size2 t in
  mk_Tensor1 b (fun b => fsum n (at2 t b)).

End Float.
End Torch.

(** ** Reward and mask update *)

Section Reward.
Context {F : Type} `{TorchFloat F}.

(** [reward(static, tour_indices)]; [None] when a tensor operation raises.
    [.data] and [.detach()] concern gradient tracking only and do not
    change the values. *)
Definition reward (static : Tensor3 F) (tour_indices : Tensor2 Z)
    : option (Tensor1 F) :=
  idx ← Torch.expand_as (Torch.unsqueeze2_1 tour_indices) (size3 static);
  gathered ← Torch.gather_2 static idx;
  let tour := Torch.permute_0_2_1 gathered in
  y ← Torch.cat_1 tour (Torch.slice_to_1 tour);
  diff ← Torch.zip_with3 fsub (Torch.slice_to_last y) (Torch.slice_from_1 y);
  let tour_len :=
    Torch.map2 fsqrt (Torch.sum_2 (Torch.map3 fpow2 diff)) in
  Some (Torch.sum_1 tour_len).

(** The coordinate [c] of the city visited at position [k] of the tour of
    batch element [b]. *)
Definition visited (static : Tensor3 F) (tour_indices : Tensor2 Z)
    (b k c : nat) : F :=
  at3 static b c (Z.to_nat (at2 tour_indices b k)).


End Reward.

(** The real numbers as idealised floats, and binary64 floats. *)
#[export] Instance R_TorchFloat : TorchFloat R := {
  fzero := 0%R;
  fadd := Rplus;
  fsub := Rminus;
  fpow2 := fun x => (x ^ 2)%R;
  fsqrt := sqrt;
}.

#[export] Instance float_TorchFloat : TorchFloat float := {
  fzero := 0%float;
  fadd := PrimFloat.add;
  fsub := PrimFloat.sub;
  fpow2 := fun x => PrimFloat.mul x x;
  fsqrt := PrimFloat.sqrt;
}.

Section Mask.
Context {D : Type}.

(** [update_mask(mask, dynamic, chosen_idx)].  The mask is an object in a
    store of tensors and the function receives and returns a reference to
    it (a reference to no object is an error, which Python excludes); the
    out-of-range error of [scatter_] is a [RuntimeError] (the model leaves
    the store as it was in that case, which no statement relies on). *)
Definition update_mask (mask : nat) (dynamic : D) (chosen_idx : Tensor1 Z)
    : M (gmap nat (Tensor2 Z)) nat :=
  h ← Py.get;
  m ← Py.not_none AttributeError (h !! mask);
  m' ← Py.not_none RuntimeError
        (Torch.scatter_1 m (Torch.unsqueeze1_1 chosen_idx) 0);
  Py.modify (fun h => <[mask := m']> h) ;;
  Py.ret mask.

End Mask.


(** The unit square, corners in the order (0,0), (1,0), (1,1), (0,1), for
    [batch] instances. *)
Definition unit_square {F} (zero one : F) (batch : nat) : Tensor3 F :=
  Torch.of_list3 zero
    (repeat [[zero; one; one; zero]; [zero; zero; one; one]] batch).


Definition identity_tour (batch : nat) : Tensor2 Z :=
  Torch.of_list2 0 (repeat [0; 1; 2; 3] batch).

(** ** The dataset container, the renderer and the decoding loop *)

Module Torch2.
Section Ops.
Context {A : Type}.

(** The position [t[idx]] selects along dimension 0 of a tensor with [n]
    entries there: a negative index counts from the end, and an index
    outside [-n, n) is an [IndexError]. *)
Definition position (n : nat) (idx : Z) : option nat :=
  let j := if idx <? 0 then Z.of_nat n + idx else idx in
  if (0 <=? j) && (j <? Z.of_nat n) then Some (Z.to_nat j) else None.

(** [t[idx]] for a tensor of rank 3 and of rank 2 *)
Definition select3 (t : Tensor3 A) (idx : Z) : option (Tensor2 A) :=
  j ← position (size3 t).1.1 idx;
  Some (mk_Tensor2 ((size3 t).1.2, (size3 t).2) (fun c k => at3 t j c k)).

Definition select2 (t : Tensor2 A) (idx : Z) : option (Tensor1 A) :=
  j ← position (size2 t).1 idx;
  Some (mk_Tensor1 (size2 t).2 (fun k => at2 t j k)).

(** [t.unsqueeze(0)] *)
Definition unsqueeze1_0 (t : Tensor1 A) : Tensor2 A :=
  mk_Tensor2 (1%nat, size1 t) (fun _ k => at1 t k).

(** [t.expand(rows, -1)]: the rows are expanded, the columns kept. *)
Definition expand_rows (t : Tensor2 A) (rows : nat) : option (Tensor2 A) :=
  f ← Torch.expand_dim (size2 t).1 rows;
  Some (mk_Tensor2 (rows, (size2 t).2) (fun c k => at2 t (f c) k)).

(** [t[:, 0:1]] *)
Definition first_column (t : Tensor2 A) : Tensor2 A :=
  mk_Tensor2 ((size2 t).1, Nat.min 1 (size2 t).2) (fun c k => at2 t c k).

(** [torch.cat((t1, t2), dim=1)] for rank 2: the rows must agree. *)
Definition cat_columns (t1 t2 : Tensor2 A) : option (Tensor2 A) :=
  if ((size2 t1).1 =? (size2 t2).1)%nat then
    Some (mk_Tensor2 ((size2 t1).1, ((size2 t1).2 + (size2 t2).2)%nat)
            (fun c k =>
               if (k <? (size2 t1).2)%nat then at2 t1 c k
               else at2 t2 c (k - (size2 t1).2)%nat))
  else None.

(** [torch.gather(input, 1, index)] for rank 2 *)
Definition gather_columns (input : Tensor2 A) (index : Tensor2 Z)
    : option (Tensor2 A) :=
  if ((size2 index).1 <=? (size2 input).1)%nat
     && Torch.all2 (size2 index)
          (fun c k => (0 <=? at2 index c k)
                      && (at2 index c k <? Z.of_nat (size2 input).2))
  then
    Some (mk_Tensor2 (size2 index)
            (fun c k => at2 input c (Z.to_nat (at2 index c k))))
  else None.

(** [data[r]] and [data[r, k]] on a numpy array of rank 2, at natural
    indices *)
Definition row (data : Tensor2 A) (r : nat) : option (list A) :=
  if (r <? (size2 data).1)%nat
  then Some (map (at2 data r) (seq 0 (size2 data).2))
  else None.

Definition element (data : Tensor2 A) (r k : nat) : option A :=
  if (r <? (size2 data).1)%nat && (k <? (size2 data).2)%nat
  then Some (at2 data r k)
  else None.

End Ops.
End Torch2.

Section Dataset.
Context {Param F : Type} `{TorchFloat F}.

(** The external sampler [node_distrib.get_param_nodes], which is not part
    of this module. *)
Variable get_param_nodes : Z -> Z -> Z -> Z -> Param -> Tensor3 F.

(** The fields [TSPDataset.__init__] sets. *)
Record TSPDatasetFields : Type := mk_TSPDatasetFields {
  ds_dataset : Tensor3 F;
  ds_dynamic : Tensor3 F;
  ds_nodes : Z;
  ds_size : Z;
}.

(** [torch.zeros(d0, d1, d2)]: a negative size is an error. *)
Definition zeros3 (d0 d1 d2 : Z) : option (Tensor3 F) :=
  if (0 <=? d0) && (0 <=? d1) && (0 <=? d2)
  then Some (mk_Tensor3 (Z.to_nat d0, Z.to_nat d1, Z.to_nat d2)
               (fun _ _ _ => fzero))
  else None.

(** [TSPDataset.__init__] for an integer seed (the seeding of the global
    random generators is left out): the tensors of the object constructed
    with the arguments recorded in [d]. *)
Definition TSPDataset__init__ (d : TSPDataset Param)
    : outcome TSPDatasetFields :=
  let nodes :=
    get_param_nodes d.(ds_num_nodes) d.(ds_num_samples) d.(ds_seed)
      d.(ds_num_tiles) d.(ds_param) in
  match zeros3 d.(ds_num_samples) 1 d.(ds_num_nodes) with
  | Some dynamic =>
      Ok (mk_TSPDatasetFields nodes dynamic d.(ds_num_nodes)
            d.(ds_num_samples))
  | None => Raise RuntimeError
  end.

(** [TSPDataset.__len__] *)
Definition TSPDataset__len__ (o : TSPDatasetFields) : Z := o.(ds_size).

(** [TSPDataset.__getitem__]: [(static, dynamic, start_loc)] *)
Definition TSPDataset__getitem__ (o : TSPDatasetFields) (idx : Z)
    : outcome (Tensor2 F * Tensor2 F * list Z) :=
  match Torch2.select3 o.(ds_dataset) idx with
  | None => Raise IndexError
  | Some static =>
      match Torch2.select3 o.(ds_dynamic) idx with
      | None => Raise IndexError
      | Some dynamic => Ok (static, dynamic, [])
      end
  end.

End Dataset.

Section Render.
Context {F : Type}.

(** [3 if int(np.sqrt(len(tour_indices))) >= 3 else 1]: the integer part of
    the square root of a length is its integer square root. *)
Definition num_plots (batch : nat) : nat :=
  if 3 <=? Z.sqrt (Z.of_nat batch) then 3%nat else 1%nat.

(** What [render] draws on one axis: the line through the points [(x, y)],
    which are also scattered, and the start marker. *)
Record Drawing : Type := mk_Drawing {
  line_x : list F;
  line_y : list F;
  start_marker : F * F;
}.

(** The body of the loop of [render] for the axis [i]. *)
Definition render_axis (static : Tensor3 F) (tour_indices : Tensor2 Z)
    (i : nat) : outcome Drawing :=
  match Torch2.select2 tour_indices (Z.of_nat i) with
  | None => Raise IndexError
  | Some idx =>
      match
        idx ← Torch2.expand_rows (Torch2.unsqueeze1_0 idx) (size3 static).1.2;
        idx ← Torch2.cat_columns idx (Torch2.first_column idx);
        Some idx
      with
      | None => Raise RuntimeError
      | Some idx =>
          match Torch2.select3 static (Z.of_nat i) with
          | None => Raise IndexError
          | Some static_i =>
              match Torch2.gather_columns static_i idx with
              | None => Raise RuntimeError
              | Some data =>
                  match
                    xs ← Torch2.row data 0;
                    ys ← Torch2.row data 1;
                    x0 ← Torch2.element data 0 0;
                    y0 ← Torch2.element data 1 0;
                    Some (mk_Drawing xs ys (x0, y0))
                  with
                  | None => Raise IndexError
                  | Some drawing => Ok drawing
                  end
              end
          end
      end
  end.

(** The loop of [render] over the axes [first, first + count). *)
Fixpoint render_axes (static : Tensor3 F) (tour_indices : Tensor2 Z)
    (first count : nat) : outcome (list Drawing) :=
  match count with
  | O => Ok []
  | S count' =>
      match render_axis static tour_indices first with
      | Raise e => Raise e
      | Ok d =>
          match render_axes static tour_indices (S first) count' with
          | Raise e => Raise e
          | Ok ds => Ok (d :: ds)
          end
      end
  end.

(** [render(static, tour_indices, save_path)]: the drawings of the figure
    that is saved, in the order of the axes; a raise leaves no file. *)
Definition render (static : Tensor3 F) (tour_indices : Tensor2 Z)
    : outcome (list Drawing) :=
  let n := num_plots (size2 tour_indices).1 in
  render_axes static tour_indices 0 (n * n).

End Render.

Section Decoding.
Context {D : Type}.

(** One [update_mask] call per decoding step, each on the mask the
    previous one returned. *)
Fixpoint update_mask_steps (mask : nat) (dynamic : D)
    (steps : list (Tensor1 Z)) : M (gmap nat (Tensor2 Z)) nat :=
  match steps with
  | [] => Py.ret mask
  | chosen_idx :: rest =>
      mask' ← update_mask mask dynamic chosen_idx;
      update_mask_steps mask' dynamic rest
  end.

End Decoding.



(** The mask [update_mask] leaves for a [chosen_idx] of [B'] in-range
    entries: the chosen entry of each of the first [B'] rows is 0. *)
Definition masked (m : Tensor2 Z) (B' : nat) (chosen_idx : Tensor1 Z)
    : Tensor2 Z :=
  mk_Tensor2 (size2 m)
    (fun b n =>
       if (b <? B')%nat && ((Z.to_nat (at1 chosen_idx b) =? n)%nat || false)
       then 0
       else at2 m b n).

(** The closed line of the tour of instance [i]: the first two
    coordinates of the cities at the [n] positions of the tour in order,
    then again of the city at position 0, which is also the start
    marker. *)
Definition tour_drawing {F} (static : Tensor3 F) (tour_indices : Tensor2 Z)
    (n i : nat) : Drawing (F := F) :=
  let city := fun c k =>
    at3 static i c (Z.to_nat (at2 tour_indices i (k mod n)%nat)) in
  mk_Drawing (map (city 0%nat) (seq 0 (n + 1)))
    (map (city 1%nat) (seq 0 (n + 1)))
    (city 0%nat 0%nat, city 1%nat 0%nat).

(** ** The curriculum: closed forms of the methods *)

Section CurriculumFacts.
Context {Param : Type}.
Implicit Types (specs init rest : list (Z * Param * Z)) (s : State Param).
Implicit Types (p : Param) (t n : Z).








(** [add_stage]: what one call does to any state. *)
Lemma add_stage_eq t p n s :
  add_stage t p n s
  = (Ok tt,
     mk_State
       (set_curr_len (s.(self).(_curr_len) + n)
          (set_stages
             (s.(self).(_stages) ++ [mk_TSPStage t p s.(self).(_curr_len) n])
             s.(self)))
       s.(datasets)).
Proof. reflexivity. Qed.

(** [add_stages]: the stages are appended in order, each starting at the
    cumulative length before it, and nothing else changes. *)
Lemma add_stages_eq specs s :
  add_stages specs s
  = (Ok tt,
     mk_State
       (set_curr_len (s.(self).(_curr_len) + total_epochs specs)
          (set_stages
             (s.(self).(_stages) ++ stages_from s.(self).(_curr_len) specs)
             s.(self)))
       s.(datasets)).
Proof.
  revert s. induction specs as [|[[t p] n] specs IH]; intros [c ds].
  - destruct c. unfold set_curr_len, set_stages, total_epochs. simpl.
    rewrite app_nil_r, Z.add_0_r. reflexivity.
  - change (add_stages ((t, p, n) :: specs))
      with (add_stage t p n ;; add_stages specs).
    unfold mbind, M_bind, Py.bind. rewrite add_stage_eq, IH.
    destruct c. unfold set_curr_len, set_stages. simpl.
    rewrite <- app_assoc. simpl. do 3 f_equal.
    unfold total_epochs. simpl. lia.
Qed.


(** Before [start()] succeeded there is no current stage: the call raises
    after the epoch was advanced. *)
Lemma increment_epoch_no_stage s :
  s.(self).(_curr_stage) = None ->
  increment_epoch s = (Raise AttributeError, mk_State (bump s.(self)) s.(datasets)).
Proof.
  destruct s as [c ds]. destruct c. simpl. intros ->.
  unfold increment_epoch, bump, mbind, M_bind, Py.bind. simpl.
  destruct (_ =? _); reflexivity.
Qed.









(** *** Arithmetic of the replayed stage index *)











Lemma sum_lengths_stages_from base specs :
  sum_lengths (stages_from base specs) = total_epochs specs.
Proof.
  revert base. induction specs as [|[[t p] n] specs IH]; intros base;
    [reflexivity|].
  simpl. unfold sum_lengths, total_epochs in *. simpl. by rewrite IH.
Qed.


Lemma get_dataset_eq s :
  get_dataset s
  = (if s.(self).(_finished)
     then Raise AssertionError
     else Ok s.(self).(_curr_dataset), s).
Proof.
  unfold get_dataset, mbind, M_bind, Py.bind. simpl.
  destruct (_finished _); reflexivity.
Qed.

End CurriculumFacts.

(** ** The curriculum: the claims *)

Section CurriculumClaims.
Context {Param : Type}.
Implicit Types (specs init rest : list (Z * Param * Z)) (s : State Param).
Implicit Types (p : Param) (t n : Z).




End CurriculumClaims.







(** C3.  [get_dataset()] raises [AssertionError] exactly when [finished]
    is true; when it is false the call returns the current dataset; in
    both cases the state is left as it was. *)
Theorem get_dataset_contract {Param : Type} (s : State Param) :
  ((get_dataset s).1 = Raise AssertionError <-> _finished (self s) = true)
  /\ (_finished (self s) = false ->
      (get_dataset s).1 = Ok (_curr_dataset (self s)))
  /\ (get_dataset s).2 = s.
Proof.
  rewrite get_dataset_eq. destruct (_finished (self s)); simpl.
  - repeat split; intros; congruence.
  - repeat split; intros; congruence.
Qed.




(** C8.  A call [add_stage(num_tiles, param, num_epochs)] on a curriculum
    to which stages were added and which was not started returns normally;
    it appends one stage, whose start is the sum of the lengths of the
    stages added before (the cumulative length so far) and whose length is
    [num_epochs]; the stages added before are kept as they were; the
    cumulative length grows by [num_epochs]; nothing else changes. *)
Theorem add_stage_postcondition {Param : Type}
    (num_nodes num_samples seed : Z) (specs : list (Z * Param * Z))
    (num_tiles : Z) (param : Param) (num_epochs : Z) :
  let s := (add_stages specs (fresh num_nodes num_samples seed)).2 in
  let r := add_stage num_tiles param num_epochs s in
  r.1 = Ok tt
  /\ _stages (self r.2)
     = _stages (self s)
         ++ [mk_TSPStage num_tiles param (sum_lengths (_stages (self s)))
               num_epochs]
  /\ sum_lengths (_stages (self s)) = _curr_len (self s)
  /\ _curr_len (self r.2) = _curr_len (self s) + num_epochs
  /\ self r.2
     = set_curr_len (_curr_len (self r.2))
         (set_stages (_stages (self r.2)) (self s))
  /\ datasets r.2 = datasets s.
Proof.
  intros s r. subst r. rewrite add_stage_eq.
  assert (Hsum : sum_lengths (_stages (self s)) = _curr_len (self s)).
  { subst s. rewrite add_stages_eq.
    cbn [snd self _stages _curr_len set_curr_len set_stages fresh __init__ app].
    rewrite sum_lengths_stages_from. reflexivity. }
  rewrite Hsum. destruct s as [c ds]. destruct c. cbn. repeat split.
Qed.

(** C9.  [start()] on a curriculum without stages raises [IndexError] at
    the lookup of stage 0: no stage and no dataset becomes current and no
    dataset is constructed (the epoch and the stage index were already set
    to 0). *)
Theorem start_without_stages_raises {Param : Type}
    (num_nodes num_samples seed : Z) :
  start (fresh (Param := Param) num_nodes num_samples seed)
  = (Raise IndexError,
     mk_State
       {| _num_nodes := num_nodes;
          _num_samples := num_samples;
          _seed := seed;
          _stages := [];
          _curr_stage_index := Some 0;
          _curr_stage := None;
          _curr_dataset := None;
          _curr_epoch := 0;
          _curr_len := 0;
          _finished := false |}
       []).
Proof. reflexivity. Qed.




(** ** Tensors: sums and bounds checks *)

Section TensorFacts.
Context {F : Type} `{TorchFloat F}.

Lemma fsum_0 (f : nat -> F) : Torch.fsum 0 f = fzero.
Proof. reflexivity. Qed.

Lemma fsum_S (n : nat) (f : nat -> F) :
  Torch.fsum (S n) f = fadd (Torch.fsum n f) (f n).
Proof.
  unfold Torch.fsum. rewrite seq_S, map_app, foldl_app. reflexivity.
Qed.

Lemma fsum_ext (n : nat) (f g : nat -> F) :
  (forall k, (k < n)%nat -> f k = g k) ->
  Torch.fsum n f = Torch.fsum n g.
Proof.
  induction n as [|n IH]; intros Hfg; [reflexivity|].
  rewrite !fsum_S, IH, Hfg by (intros; try apply Hfg; lia). reflexivity.
Qed.

Lemma all2_true (shape : nat * nat) (P : nat -> nat -> bool) :
  (forall b k, (b < shape.1)%nat -> (k < shape.2)%nat -> P b k = true) ->
  Torch.all2 shape P = true.
Proof.
  intros HP. unfold Torch.all2. apply forallb_forall. intros b Hb.
  apply forallb_forall. intros k Hk.
  apply in_seq in Hb, Hk. apply HP; lia.
Qed.

Lemma all3_true (shape : nat * nat * nat) (P : nat -> nat -> nat -> bool) :
  (forall b c k, (b < shape.1.1)%nat -> (c < shape.1.2)%nat ->
                 (k < shape.2)%nat -> P b c k = true) ->
  Torch.all3 shape P = true.
Proof.
  intros HP. unfold Torch.all3. apply forallb_forall. intros b Hb.
  apply in_seq in Hb. apply all2_true. intros c k Hc Hk. apply HP; [lia|done..].
Qed.

(** The index tensor of [reward]: the tour of each batch element, repeated
    for every coordinate. *)
Lemma expand_tour_indices (tour_indices : Tensor2 Z) (B C N : nat) :
  size2 tour_indices = (B, N) ->
  exists idx,
    Torch.expand_as (Torch.unsqueeze2_1 tour_indices) (B, C, N) = Some idx
    /\ size3 idx = (B, C, N)
    /\ forall b c k, at3 idx b c k = at2 tour_indices b k.
Proof.
  intros Hsz. unfold Torch.expand_as, Torch.unsqueeze2_1, Torch.expand_dim.
  rewrite Hsz. cbn [size3 fst snd]. rewrite !Nat.eqb_refl.
  destruct (1 =? C)%nat; cbn; eexists; (split; [reflexivity|]);
    split; reflexivity.
Qed.

Lemma all3_spec (shape : nat * nat * nat) (P : nat -> nat -> nat -> bool) :
  Torch.all3 shape P = true
  <-> forall b c k, (b < shape.1.1)%nat -> (c < shape.1.2)%nat ->
                    (k < shape.2)%nat -> P b c k = true.
Proof.
  split; [|apply all3_true].
  unfold Torch.all3, Torch.all2. intros Hall b c k Hb Hc Hk.
  rewrite forallb_forall in Hall.
  specialize (Hall b). rewrite in_seq in Hall.
  specialize (Hall ltac:(lia)). rewrite forallb_forall in Hall.
  specialize (Hall c). rewrite in_seq in Hall.
  specialize (Hall ltac:(cbn [fst snd]; lia)). rewrite forallb_forall in Hall.
  apply Hall. rewrite in_seq. cbn [fst snd]. lia.
Qed.

(** [reward] as one formula, for any arithmetic.  On inputs of shapes
    [[B, C, N]] and [[B, N]] it raises when the bounds check of [gather]
    fails, and otherwise returns a tensor of shape [[B]] whose entry [b]
    adds up, over the positions [k] of the tour, the root of the sum of the
    squared differences between the city at [k] and the city at the next
    position, the first one after the last. *)
Lemma reward_closed_form (static : Tensor3 F) (tour_indices : Tensor2 Z)
    (B C N : nat) :
  size3 static = (B, C, N) ->
  size2 tour_indices = (B, N) ->
  if Torch.all3 (B, C, N)
       (fun b c k => (0 <=? at2 tour_indices b k)
                     && (at2 tour_indices b k <? Z.of_nat N))
  then
    exists r,
      reward static tour_indices = Some r
      /\ size1 r = B
      /\ forall b,
           at1 r b
           = Torch.fsum N (fun k =>
               fsqrt (Torch.fsum C (fun c =>
                 fpow2 (fsub (visited static tour_indices b k c)
                          (visited static tour_indices b
                             ((k + 1) mod N)%nat c)))))
  else reward static tour_indices = None.
Proof.
  intros Hst Htr.
  destruct (expand_tour_indices tour_indices B C N Htr)
    as (idx & Hidx & Hisz & Hiat).
  unfold reward. rewrite Hst, Hidx. cbn [mbind option_bind].
  unfold Torch.gather_2. rewrite Hst, Hisz, !Nat.leb_refl.
  assert (Hchk : Torch.all3 (B, C, N)
                   (fun b c k => (0 <=? at3 idx b c k)
                                 && (at3 idx b c k <? Z.of_nat N))
                 = Torch.all3 (B, C, N)
                     (fun b c k => (0 <=? at2 tour_indices b k)
                                   && (at2 tour_indices b k <? Z.of_nat N))).
  { apply Bool.eq_iff_eq_true. rewrite !all3_spec.
    split; intros Hall b c k Hb Hc Hk; specialize (Hall b c k Hb Hc Hk);
      congruence. }
  rewrite Hchk. clear Hchk. destruct (Torch.all3 _ _); [|reflexivity].
  cbn [andb mbind option_bind].
  unfold Torch.cat_1, Torch.slice_to_1, Torch.narrow_1, Torch.permute_0_2_1.
  cbn [size3 fst snd]. rewrite !Nat.eqb_refl. cbn [andb mbind option_bind].
  unfold Torch.zip_with3, Torch.slice_to_last, Torch.slice_from_1,
    Torch.narrow_1.
  cbn [size3 fst snd]. rewrite !Nat.eqb_refl. cbn [andb mbind option_bind].
  eexists. split; [reflexivity|]. split; [reflexivity|]. intros b.
  unfold Torch.sum_1, Torch.map2, Torch.sum_2, Torch.map3.
  cbn [size3 size2 at1 at2 at3 fst snd].
  replace (N + 1 `min` N - 1)%nat with N by lia.
  apply fsum_ext. intros k Hk. f_equal.
  apply fsum_ext. intros c Hc. unfold visited. rewrite !Hiat.
  replace (1 `min` (N + 1 `min` N))%nat with 1%nat by lia.
  destruct (Nat.ltb_spec (0 + k) N) as [_|?]; [|lia].
  destruct (Nat.ltb_spec (1 + k) N) as [Hlt|Hge].
  - rewrite Nat.mod_small by lia.
    replace (k + 1)%nat with (1 + k)%nat by lia. reflexivity.
  - replace (k + 1)%nat with N by lia. rewrite Nat.Div0.mod_same.
    replace (0 + (1 + k - N))%nat with O by lia. reflexivity.
Qed.


End TensorFacts.

(** ** Reward over the real numbers *)

Section RewardReal.
Local Open Scope R_scope.
Implicit Types (static : Tensor3 R) (tour_indices : Tensor2 Z).










End RewardReal.






(** ** Mask update *)

(** [scatter_] with one chosen index per row, inside the bounds. *)
Lemma scatter_1_chosen (m : Tensor2 Z) (chosen_idx : Tensor1 Z) (B N : nat) :
  size2 m = (B, N) ->
  size1 chosen_idx = B ->
  (forall b, (b < B)%nat -> 0 <= at1 chosen_idx b < Z.of_nat N) ->
  Torch.scatter_1 m (Torch.unsqueeze1_1 chosen_idx) 0
  = Some (mk_Tensor2 (B, N)
            (fun b n =>
               if (b <? B)%nat
                  && ((Z.to_nat (at1 chosen_idx b) =? n)%nat || false)
               then 0
               else at2 m b n)).
Proof.
  intros Hm Hc Hrange. unfold Torch.scatter_1, Torch.unsqueeze1_1.
  rewrite Hm, Hc. cbn [size2 at2]. rewrite Nat.leb_refl, all2_true.
  - reflexivity.
  - cbn [fst snd]. intros b k Hb _. specialize (Hrange b Hb).
    apply andb_true_iff. rewrite Z.leb_le, Z.ltb_lt. lia.
Qed.

(** C7.  For a mask object of shape [[B, N]] and [chosen_idx] of shape
    [[B]] with values in [[0, N)], [update_mask] returns the reference it
    was given, and the mask object it refers to has been replaced in the
    store by a mask of the same shape whose entry [[b, chosen_idx[b]]] is 0
    for every [b] and whose other entries are as before; the other objects
    of the store are untouched and the result does not depend on
    [dynamic]. *)
Theorem update_mask_effect_and_frame {D : Type}
    (h : gmap nat (Tensor2 Z)) (mask : nat) (dynamic : D)
    (chosen_idx : Tensor1 Z) (m : Tensor2 Z) (B N : nat) :
  h !! mask = Some m ->
  size2 m = (B, N) ->
  size1 chosen_idx = B ->
  (forall b, (b < B)%nat -> 0 <= at1 chosen_idx b < Z.of_nat N) ->
  exists m',
    update_mask mask dynamic chosen_idx h = (Ok mask, <[mask := m']> h)
    /\ size2 m' = (B, N)
    /\ (forall b, (b < B)%nat -> at2 m' b (Z.to_nat (at1 chosen_idx b)) = 0)
    /\ (forall b n, (b < B)%nat -> (n < N)%nat ->
          n <> Z.to_nat (at1 chosen_idx b) -> at2 m' b n = at2 m b n)
    /\ (forall l, l <> mask -> (<[mask := m']> h) !! l = h !! l)
    /\ (forall dynamic' : D,
          update_mask mask dynamic' chosen_idx h
          = update_mask mask dynamic chosen_idx h).
Proof.
  intros Hh Hm Hc Hrange.
  eexists. split.
  { unfold update_mask, mbind, M_bind, Py.bind. cbn [Py.get].
    rewrite Hh. cbn [Py.not_none Py.ret].
    rewrite (scatter_1_chosen m chosen_idx B N Hm Hc Hrange).
    reflexivity. }
  split; [reflexivity|]. cbn [at2].
  split; [|split; [|split]].
  - intros b Hb. destruct (Nat.ltb_spec b B); [|lia].
    by rewrite Nat.eqb_refl.
  - intros b n Hb Hn Hne. destruct (Nat.ltb_spec b B); [|lia].
    destruct (Nat.eqb_spec (Z.to_nat (at1 chosen_idx b)) n); [congruence|].
    reflexivity.
  - intros l Hl. by apply lookup_insert_ne.
  - reflexivity.
Qed.

Lemma update_mask_effect_and_frame_witness :
  exists m',
    update_mask 0%nat tt (Torch.of_list1 0 [1; 1])
      {[ 0%nat := Torch.of_list2 0 [[1; 1; 1]; [1; 1; 1]] ]}
    = (Ok 0%nat,
       <[0%nat := m']> {[ 0%nat := Torch.of_list2 0 [[1; 1; 1]; [1; 1; 1]] ]})
    /\ Torch.to_list2 m' = [[1; 0; 1]; [1; 0; 1]].
Proof.
  destruct (update_mask_effect_and_frame
              {[ 0%nat := Torch.of_list2 0 [[1; 1; 1]; [1; 1; 1]] ]}
              0%nat tt (Torch.of_list1 0 [1; 1])
              (Torch.of_list2 0 [[1; 1; 1]; [1; 1; 1]]) 2 3)
    as (m' & Hrun & Hsz & Hzero & Hkeep & _).
  - reflexivity.
  - reflexivity.
  - reflexivity.
  - intros b Hb. destruct b as [|[|b]]; [| |lia]; cbn; lia.
  - exists m'. split; [exact Hrun|].
    unfold Torch.to_list2. rewrite Hsz. cbn [fst snd seq map].
    pose proof (Hzero 0%nat ltac:(lia)) as H0.
    pose proof (Hzero 1%nat ltac:(lia)) as H1.
    change (at2 m' 0 1 = 0) in H0. change (at2 m' 1 1 = 0) in H1.
    rewrite H0, H1, !Hkeep by (cbn; lia). reflexivity.
Defined.

Example ex_two_stages :
  (trained 5 10 7 [(1, tt, 2); (3, tt, 2)] 3).2.(datasets)
  = [mk_TSPDataset 5 10 7 1 tt; mk_TSPDataset 5 10 7 3 tt].
Proof. reflexivity. Qed.

Example ex_reward_unit_square_float :
  Torch.to_list1 <$> reward (unit_square 0%float 1%float 3) (identity_tour 3)
  = Some [4%float; 4%float; 4%float].
Proof. vm_compute. reflexivity. Qed.

(** ** Further properties of the curriculum *)

(** X1.  Before [start()], whatever stages were added, [get_dataset()]
    returns [None] without raising, and [increment_epoch()] raises
    [AttributeError] at the access to the current stage, after it moved the
    epoch from -1 to 0; [finished] is set by that call exactly when the
    stages added have total length 0. *)
Theorem methods_before_start {Param : Type}
    (num_nodes num_samples seed : Z) (specs : list (Z * Param * Z)) :
  let s := (add_stages specs (fresh num_nodes num_samples seed)).2 in
  get_dataset s = (Ok None, s)
  /\ (increment_epoch s).1 = Raise AttributeError
  /\ _curr_epoch (self (increment_epoch s).2) = 0
  /\ _finished (self (increment_epoch s).2) = (0 =? total_epochs specs)
  /\ datasets (increment_epoch s).2 = [].
Proof.
  intros s. subst s. rewrite add_stages_eq.
  split; [reflexivity|].
  rewrite increment_epoch_no_stage by reflexivity.
  unfold bump.
  match goal with
  | |- context [if ?b then _ else _] =>
      change b with (0 =? total_epochs specs)
  end.
  destruct (0 =? total_epochs specs); repeat split.
Qed.

(** X2.  In any state, whether it returns or raises, [increment_epoch()]
    adds exactly 1 to the epoch, keeps the stage list, the cumulative
    length and the dataset arguments, never clears [finished], never
    removes or changes a constructed dataset and constructs at most one,
    and leaves the stage index as it was or advances it by exactly 1. *)
Theorem increment_epoch_frame {Param : Type} (s : State Param) :
  let s' := (increment_epoch s).2 in
  _curr_epoch (self s') = _curr_epoch (self s) + 1
  /\ _stages (self s') = _stages (self s)
  /\ _curr_len (self s') = _curr_len (self s)
  /\ (_num_nodes (self s'), _num_samples (self s'), _seed (self s'))
     = (_num_nodes (self s), _num_samples (self s), _seed (self s))
  /\ (_finished (self s) = true -> _finished (self s') = true)
  /\ (datasets s' = datasets s \/ exists d, datasets s' = datasets s ++ [d])
  /\ (_curr_stage_index (self s') = _curr_stage_index (self s)
      \/ exists i, _curr_stage_index (self s) = Some i
                   /\ _curr_stage_index (self s') = Some (i + 1)).
Proof.
  destruct s as [c ds]. destruct c.
  unfold increment_epoch, mbind, M_bind, Py.bind, Py.getitem. cbn.
  destruct (_ + 1 =? _curr_len0); cbn;
    (destruct _curr_stage0 as [stage|]; cbn; [|by repeat split; eauto]);
    (destruct (_ && _); cbn; [|by repeat split; eauto]);
    (destruct _curr_stage_index0 as [i|]; cbn; [|by repeat split; eauto]);
    (destruct (Py.index _stages0 (i + 1)) as [stage'|]; cbn);
    repeat split; eauto.
Qed.



Section Schedule.
Context {Param : Type}.
Implicit Types (specs : list (Z * Param * Z)).



End Schedule.





(** ** Further properties of the reward *)

Section RewardMore.
Local Open Scope R_scope.
Implicit Types (static : Tensor3 R) (tour_indices : Tensor2 Z).

Lemma Rsum_nonneg (n : nat) (f : nat -> R) :
  (forall k, (k < n)%nat -> 0 <= f k) -> 0 <= Torch.fsum n f.
Proof.
  induction n as [|n IH]; intros Hf.
  - rewrite fsum_0. cbn [fzero R_TorchFloat]. lra.
  - rewrite fsum_S. cbn [fadd R_TorchFloat].
    specialize (IH ltac:(intros; apply Hf; lia)).
    specialize (Hf n ltac:(lia)). lra.
Qed.

Lemma Rsum_zero (n : nat) (f : nat -> R) :
  (forall k, (k < n)%nat -> f k = 0) -> Torch.fsum n f = 0.
Proof.
  induction n as [|n IH]; intros Hf.
  - reflexivity.
  - rewrite fsum_S, IH, Hf by (intros; try apply Hf; lia).
    cbn [fadd R_TorchFloat]. ring.
Qed.


(** The bounds check of [gather] in [reward], as a proposition. *)
Lemma gather_check_spec tour_indices (B C N : nat) :
  Torch.all3 (B, C, N)
    (fun b c k => (0 <=? at2 tour_indices b k)%Z
                  && (at2 tour_indices b k <? Z.of_nat N)%Z) = true
  <-> forall b c k, (b < B)%nat -> (c < C)%nat -> (k < N)%nat ->
        (0 <= at2 tour_indices b k < Z.of_nat N)%Z.
Proof.
  rewrite all3_spec. cbn [fst snd].
  split; intros Hall b c k Hb Hc Hk; specialize (Hall b c k Hb Hc Hk).
  - apply andb_true_iff in Hall. rewrite Z.leb_le, Z.ltb_lt in Hall. lia.
  - apply andb_true_iff. rewrite Z.leb_le, Z.ltb_lt. lia.
Qed.

End RewardMore.

(** X6.  On coordinates of shape [[B, C, N]] and tour indices of shape
    [[B, N]], [reward] returns a result (it does not raise) exactly when
    every tour index that [gather] reads lies in [[0, N)]; with no
    coordinate row or no instance nothing is read and it always returns. *)
Theorem reward_returns_iff_in_range {F : Type} `{TorchFloat F}
    (static : Tensor3 F) (tour_indices : Tensor2 Z) (B C N : nat) :
  size3 static = (B, C, N) ->
  size2 tour_indices = (B, N) ->
  is_Some (reward static tour_indices)
  <-> forall b c k, (b < B)%nat -> (c < C)%nat -> (k < N)%nat ->
        0 <= at2 tour_indices b k < Z.of_nat N.
Proof.
  intros Hst Htr. rewrite <- gather_check_spec.
  pose proof (reward_closed_form static tour_indices B C N Hst Htr) as Hcf.
  destruct (Torch.all3 _ _).
  - destruct Hcf as (r & -> & _). split; [done|]. intros _. by exists r.
  - rewrite Hcf. split; [intros [r Hr]; discriminate|discriminate].
Qed.

Lemma reward_returns_iff_in_range_witness :
  is_Some (reward (unit_square 0%R 1%R 2) (identity_tour 2))
  <-> forall b c k, (b < 2)%nat -> (c < 2)%nat -> (k < 4)%nat ->
        0 <= at2 (identity_tour 2) b k < Z.of_nat 4.
Proof.
  apply (reward_returns_iff_in_range
           (unit_square 0%R 1%R 2) (identity_tour 2) 2 2 4);
    reflexivity.
Defined.

(** X7.  [reward] raises when the shapes of its arguments do not fit: the
    tour indices have a batch size other than that of the coordinates and
    other than 1, or a tour length other than the number of nodes and other
    than 1 ([expand_as] refuses them). *)
Theorem reward_shape_mismatch_raises {F : Type} `{TorchFloat F}
    (static : Tensor3 F) (tour_indices : Tensor2 Z) (B C N Bt Nt : nat) :
  size3 static = (B, C, N) ->
  size2 tour_indices = (Bt, Nt) ->
  (Bt <> B /\ Bt <> 1%nat) \/ (Nt <> N /\ Nt <> 1%nat) ->
  reward static tour_indices = None.
Proof.
  intros Hst Htr Hbad.
  unfold reward, Torch.expand_as, Torch.unsqueeze2_1, Torch.expand_dim.
  rewrite Hst, Htr. cbn [size3 fst snd].
  destruct Hbad as [[Hb Hb1]|[Hn Hn1]].
  - destruct (Nat.eqb_spec Bt B); [done|].
    destruct (Nat.eqb_spec Bt 1); [done|]. reflexivity.
  - destruct (Nat.eqb_spec Nt N); [done|].
    destruct (Nat.eqb_spec Nt 1); [done|].
    destruct (Bt =? B)%nat; [|destruct (Bt =? 1)%nat];
      destruct (1 =? C)%nat; reflexivity.
Qed.

Lemma reward_shape_mismatch_raises_witness :
  reward (unit_square 0%R 1%R 3) (identity_tour 2) = None.
Proof.
  apply (reward_shape_mismatch_raises
           (unit_square 0%R 1%R 3) (identity_tour 2) 3 2 4 2 4).
  - reflexivity.
  - reflexivity.
  - left. split; discriminate.
Defined.



(** X9.  Over the real numbers a tour length is never negative, and it is
    0 for an instance whose tour stays at one city (in particular for a
    tour of a single position): every entry of the result of [reward] on
    coordinates of shape [[B, C, N]] and tour indices of shape [[B, N]] is
    at least 0, and the entry of such an instance is 0. *)
Theorem reward_nonnegative
    (static : Tensor3 R) (tour_indices : Tensor2 Z) (B C N : nat)
    (r : Tensor1 R) :
  size3 static = (B, C, N) ->
  size2 tour_indices = (B, N) ->
  reward static tour_indices = Some r ->
  (forall b, (0 <= at1 r b)%R)
  /\ (forall b,
        (forall k, (k < N)%nat ->
           at2 tour_indices b k = at2 tour_indices b 0) ->
        at1 r b = 0%R).
Proof.
  intros Hst Htr Hr.
  pose proof (reward_closed_form static tour_indices B C N Hst Htr) as Hcf.
  destruct (Torch.all3 _ _); [|congruence].
  destruct Hcf as (r' & Hr' & _ & Hat).
  assert (r' = r) as -> by congruence.
  split; intros b.
  - rewrite Hat. apply Rsum_nonneg. intros k _.
    cbn [fsqrt R_TorchFloat]. apply sqrt_pos.
  - intros Hconst. rewrite Hat. apply Rsum_zero. intros k Hk.
    rewrite Rsum_zero; [apply sqrt_0|].
    intros c _. unfold visited.
    rewrite (Hconst k Hk), (Hconst ((k + 1) mod N)%nat)
      by (apply Nat.mod_upper_bound; lia).
    cbn [fpow2 fsub R_TorchFloat]. ring.
Qed.

Lemma reward_nonnegative_witness :
  exists r,
    reward (unit_square 0%R 1%R 2) (Torch.of_list2 0 [[0; 1; 2; 3]; [2; 2; 2; 2]])
    = Some r
    /\ (0 <= at1 r 0)%R /\ at1 r 1 = 0%R.
Proof.
  pose proof (reward_closed_form (unit_square 0%R 1%R 2)
                (Torch.of_list2 0 [[0; 1; 2; 3]; [2; 2; 2; 2]])
                2 2 4 eq_refl eq_refl) as Hcf.
  destruct (Torch.all3 _ _) eqn:E in Hcf; [|vm_compute in E; discriminate].
  destruct Hcf as (r & Hr & _). exists r. split; [exact Hr|].
  destruct (reward_nonnegative
              (unit_square 0%R 1%R 2)
              (Torch.of_list2 0 [[0; 1; 2; 3]; [2; 2; 2; 2]]) 2 2 4 r
              eq_refl eq_refl Hr) as [Hpos Hzero].
  split; [apply Hpos|]. apply Hzero. intros k Hk.
  destruct k as [|[|[|[|k]]]]; [| | | |lia]; reflexivity.
Defined.



(** ** Further properties of the mask update *)

Section MaskMore.
Context {D : Type}.
Implicit Types (h : gmap nat (Tensor2 Z)) (m : Tensor2 Z).
Implicit Types (chosen_idx : Tensor1 Z) (dynamic : D).

Lemma all2_spec (shape : nat * nat) (P : nat -> nat -> bool) :
  Torch.all2 shape P = true
  <-> forall b k, (b < shape.1)%nat -> (k < shape.2)%nat -> P b k = true.
Proof.
  split; [|apply all2_true].
  unfold Torch.all2. intros Hall b k Hb Hk.
  rewrite forallb_forall in Hall.
  specialize (Hall b). rewrite in_seq in Hall.
  specialize (Hall ltac:(lia)). rewrite forallb_forall in Hall.
  apply Hall. rewrite in_seq. lia.
Qed.

Lemma scatter_1_rows m chosen_idx (B N B' : nat) :
  size2 m = (B, N) ->
  size1 chosen_idx = B' ->
  (B' <= B)%nat ->
  (forall b, (b < B')%nat -> 0 <= at1 chosen_idx b < Z.of_nat N) ->
  Torch.scatter_1 m (Torch.unsqueeze1_1 chosen_idx) 0
  = Some (masked m B' chosen_idx).
Proof.
  intros Hm Hc Hle Hrange. unfold Torch.scatter_1, Torch.unsqueeze1_1, masked.
  rewrite Hm, Hc. cbn [size2 at2].
  destruct (Nat.leb_spec B' B); [|lia]. rewrite all2_true.
  - reflexivity.
  - cbn [fst snd]. intros b k Hb _. specialize (Hrange b Hb).
    apply andb_true_iff. rewrite Z.leb_le, Z.ltb_lt. lia.
Qed.

Lemma scatter_1_rejects m chosen_idx (B N B' : nat) :
  size2 m = (B, N) ->
  size1 chosen_idx = B' ->
  (B < B')%nat
  \/ (exists b, (b < B')%nat /\ ~ 0 <= at1 chosen_idx b < Z.of_nat N) ->
  Torch.scatter_1 m (Torch.unsqueeze1_1 chosen_idx) 0 = None.
Proof.
  intros Hm Hc Hbad. unfold Torch.scatter_1, Torch.unsqueeze1_1.
  rewrite Hm, Hc. cbn [size2 at2].
  destruct (Nat.leb_spec B' B) as [Hle|Hgt]; [|reflexivity].
  destruct Hbad as [?|(b & Hb & Hout)]; [lia|].
  destruct (Torch.all2 _ _) eqn:Hall; [|reflexivity].
  exfalso. apply Hout. rewrite all2_spec in Hall.
  specialize (Hall b O Hb ltac:(cbn; lia)).
  apply andb_true_iff in Hall. rewrite Z.leb_le, Z.ltb_lt in Hall. lia.
Qed.

Lemma update_mask_rows h mask dynamic chosen_idx m (B N B' : nat) :
  h !! mask = Some m ->
  size2 m = (B, N) ->
  size1 chosen_idx = B' ->
  (B' <= B)%nat ->
  (forall b, (b < B')%nat -> 0 <= at1 chosen_idx b < Z.of_nat N) ->
  update_mask mask dynamic chosen_idx h
  = (Ok mask, <[mask := masked m B' chosen_idx]> h).
Proof.
  intros Hh Hm Hc Hle Hrange.
  unfold update_mask, mbind, M_bind, Py.bind. cbn [Py.get].
  rewrite Hh. cbn [Py.not_none Py.ret].
  rewrite (scatter_1_rows m chosen_idx B N B' Hm Hc Hle Hrange).
  reflexivity.
Qed.

End MaskMore.

(** X11.  When [chosen_idx] has fewer entries than the mask has rows,
    [update_mask] masks the chosen city in the first rows only: rows past
    the length of [chosen_idx] are left exactly as they were, as is every
    entry of the first rows other than the chosen one. *)
Theorem update_mask_shorter_choice {D : Type}
    (h : gmap nat (Tensor2 Z)) (mask : nat) (dynamic : D)
    (chosen_idx : Tensor1 Z) (m : Tensor2 Z) (B N B' : nat) :
  h !! mask = Some m ->
  size2 m = (B, N) ->
  size1 chosen_idx = B' ->
  (B' <= B)%nat ->
  (forall b, (b < B')%nat -> 0 <= at1 chosen_idx b < Z.of_nat N) ->
  exists m',
    update_mask mask dynamic chosen_idx h = (Ok mask, <[mask := m']> h)
    /\ size2 m' = (B, N)
    /\ (forall b, (b < B')%nat ->
          at2 m' b (Z.to_nat (at1 chosen_idx b)) = 0)
    /\ (forall b n, n <> Z.to_nat (at1 chosen_idx b) ->
          at2 m' b n = at2 m b n)
    /\ (forall b n, (B' <= b)%nat -> at2 m' b n = at2 m b n).
Proof.
  intros Hh Hm Hc Hle Hrange.
  exists (masked m B' chosen_idx).
  split; [by apply (update_mask_rows h mask dynamic chosen_idx m B N B')|].
  split; [exact Hm|]. unfold masked. cbn [at2].
  split; [|split].
  - intros b Hb. destruct (Nat.ltb_spec b B'); [|lia].
    by rewrite Nat.eqb_refl.
  - intros b n Hne.
    destruct (Nat.eqb_spec (Z.to_nat (at1 chosen_idx b)) n); [congruence|].
    by rewrite andb_false_r.
  - intros b n Hb. destruct (Nat.ltb_spec b B'); [lia|]. reflexivity.
Qed.

Lemma update_mask_shorter_choice_witness :
  exists m',
    update_mask 0%nat tt (Torch.of_list1 0 [2])
      {[ 0%nat := Torch.of_list2 0 [[1; 1; 1]; [1; 1; 1]] ]}
    = (Ok 0%nat,
       <[0%nat := m']> {[ 0%nat := Torch.of_list2 0 [[1; 1; 1]; [1; 1; 1]] ]})
    /\ Torch.to_list2 m' = [[1; 1; 0]; [1; 1; 1]].
Proof.
  destruct (update_mask_shorter_choice
              {[ 0%nat := Torch.of_list2 0 [[1; 1; 1]; [1; 1; 1]] ]}
              0%nat tt (Torch.of_list1 0 [2])
              (Torch.of_list2 0 [[1; 1; 1]; [1; 1; 1]]) 2 3 1)
    as (m' & Hrun & Hsz & Hzero & Hkeep & Hrest).
  - reflexivity.
  - reflexivity.
  - reflexivity.
  - lia.
  - intros b Hb. destruct b as [|b]; [|lia]. cbn. lia.
  - exists m'. split; [exact Hrun|].
    unfold Torch.to_list2. rewrite Hsz. cbn [fst snd seq map].
    pose proof (Hzero 0%nat ltac:(lia)) as H0.
    change (at2 m' 0 2 = 0) in H0.
    rewrite H0, (Hrest 1%nat 0%nat), (Hrest 1%nat 1%nat), (Hrest 1%nat 2%nat)
      by lia.
    rewrite (Hkeep 0%nat 0%nat), (Hkeep 0%nat 1%nat) by (cbn; lia).
    reflexivity.
Defined.

(** X12.  [update_mask] raises (the [RuntimeError] of [scatter_]) when
    [chosen_idx] has more entries than the mask has rows or holds an index
    outside [[0, N)]: no bounds are tolerated silently. *)
Theorem update_mask_out_of_range_raises {D : Type}
    (h : gmap nat (Tensor2 Z)) (mask : nat) (dynamic : D)
    (chosen_idx : Tensor1 Z) (m : Tensor2 Z) (B N : nat) :
  h !! mask = Some m ->
  size2 m = (B, N) ->
  (B < size1 chosen_idx)%nat
  \/ (exists b, (b < size1 chosen_idx)%nat
                /\ ~ 0 <= at1 chosen_idx b < Z.of_nat N) ->
  (update_mask mask dynamic chosen_idx h).1 = Raise RuntimeError.
Proof.
  intros Hh Hm Hbad.
  unfold update_mask, mbind, M_bind, Py.bind. cbn [Py.get].
  rewrite Hh. cbn [Py.not_none Py.ret].
  rewrite (scatter_1_rejects m chosen_idx B N (size1 chosen_idx) Hm eq_refl Hbad).
  reflexivity.
Qed.

Lemma update_mask_out_of_range_raises_witness :
  (update_mask 0%nat tt (Torch.of_list1 0 [1; 3])
     {[ 0%nat := Torch.of_list2 0 [[1; 1; 1]; [1; 1; 1]] ]}).1
  = Raise RuntimeError.
Proof.
  apply (update_mask_out_of_range_raises
           {[ 0%nat := Torch.of_list2 0 [[1; 1; 1]; [1; 1; 1]] ]}
           0%nat tt (Torch.of_list1 0 [1; 3])
           (Torch.of_list2 0 [[1; 1; 1]; [1; 1; 1]]) 2 3).
  - reflexivity.
  - reflexivity.
  - right. exists 1%nat. split; [cbn; lia|]. cbn. lia.
Defined.

(** X13.  A decoding run: after one [update_mask] call per step on a mask
    of shape [[B, N]], each step choosing one city in [[0, N)] for each of
    the [B] rows, the returned reference is the one given and entry
    [[b, n]] of the mask is 0 if city [n] was chosen for row [b] at some
    step and is what it was before otherwise; so a masked city is never
    made available again and the order of the steps does not matter. *)
Theorem update_mask_steps_effect {D : Type}
    (steps : list (Tensor1 Z)) (h : gmap nat (Tensor2 Z)) (mask : nat)
    (dynamic : D) (m : Tensor2 Z) (B N : nat) :
  h !! mask = Some m ->
  size2 m = (B, N) ->
  Forall (fun chosen_idx =>
            size1 chosen_idx = B
            /\ forall b, (b < B)%nat -> 0 <= at1 chosen_idx b < Z.of_nat N)
    steps ->
  exists m',
    update_mask_steps mask dynamic steps h = (Ok mask, <[mask := m']> h)
    /\ size2 m' = (B, N)
    /\ (forall b n, (b < B)%nat ->
          at2 m' b n
          = if existsb (fun chosen_idx =>
                          (Z.to_nat (at1 chosen_idx b) =? n)%nat) steps
            then 0
            else at2 m b n)
    /\ (forall b n, (b < B)%nat -> at2 m b n = 0 -> at2 m' b n = 0).
Proof.
  revert h m. induction steps as [|chosen_idx steps IH]; intros h m Hh Hm Hall.
  - exists m. cbn. rewrite insert_id by done. repeat split; done.
  - apply Forall_cons in Hall as [[Hc Hrange] Hall].
    pose proof (update_mask_rows h mask dynamic chosen_idx m B N B
                  Hh Hm Hc (le_n _) Hrange) as Hstep.
    destruct (IH (<[mask := masked m B chosen_idx]> h) (masked m B chosen_idx))
      as (m' & Hrun & Hsz & Hat & _); [apply lookup_insert_eq|exact Hm|exact Hall|].
    exists m'.
    assert (Hentry : forall b n, (b < B)%nat ->
              at2 m' b n
              = if existsb (fun c => (Z.to_nat (at1 c b) =? n)%nat)
                     (chosen_idx :: steps)
                then 0 else at2 m b n).
    { intros b n Hb. rewrite (Hat b n Hb). cbn [existsb].
      unfold masked. cbn [at2].
      destruct (Nat.ltb_spec b B); [|lia].
      destruct (Z.to_nat (at1 chosen_idx b) =? n)%nat;
        destruct (existsb _ steps); reflexivity. }
    split.
    { change (update_mask_steps mask dynamic (chosen_idx :: steps))
        with (mask' ← update_mask mask dynamic chosen_idx;
              update_mask_steps mask' dynamic steps).
      unfold mbind, M_bind, Py.bind. rewrite Hstep, Hrun.
      by rewrite insert_insert_eq. }
    split; [exact Hsz|]. split; [exact Hentry|].
    intros b n Hb Hz. rewrite (Hentry b n Hb), Hz.
    destruct (existsb _ _); reflexivity.
Qed.

Lemma update_mask_steps_effect_witness :
  exists m',
    update_mask_steps 0%nat tt
      [Torch.of_list1 0 [1; 0]; Torch.of_list1 0 [2; 1]]
      {[ 0%nat := Torch.of_list2 0 [[1; 1; 1]; [1; 1; 1]] ]}
    = (Ok 0%nat,
       <[0%nat := m']> {[ 0%nat := Torch.of_list2 0 [[1; 1; 1]; [1; 1; 1]] ]})
    /\ Torch.to_list2 m' = [[1; 0; 0]; [0; 0; 1]].
Proof.
  destruct (update_mask_steps_effect
              [Torch.of_list1 0 [1; 0]; Torch.of_list1 0 [2; 1]]
              {[ 0%nat := Torch.of_list2 0 [[1; 1; 1]; [1; 1; 1]] ]}
              0%nat tt (Torch.of_list2 0 [[1; 1; 1]; [1; 1; 1]]) 2 3)
    as (m' & Hrun & Hsz & Hat & _).
  - reflexivity.
  - reflexivity.
  - repeat (apply Forall_cons; split;
              [split; [reflexivity|];
               intros b Hb; (destruct b as [|[|b]]; [| |lia]); cbn; lia|]).
    constructor.
  - exists m'. split; [exact Hrun|].
    unfold Torch.to_list2. rewrite Hsz. cbn [fst snd seq map].
    rewrite !Hat by lia. reflexivity.
Defined.

(** ** The dataset container *)

Lemma position_in_range (n : nat) (idx : Z) :
  - Z.of_nat n <= idx < Z.of_nat n ->
  Torch2.position n idx = Some (Z.to_nat (idx mod Z.of_nat n)).
Proof.
  intros Hidx. unfold Torch2.position.
  destruct (Z.ltb_spec idx 0) as [Hneg|Hpos].
  - destruct (Z.leb_spec 0 (Z.of_nat n + idx)); [|lia].
    destruct (Z.ltb_spec (Z.of_nat n + idx) (Z.of_nat n)); [|lia].
    cbn. do 2 f_equal.
    apply (Z.mod_unique idx (Z.of_nat n) (-1)); lia.
  - destruct (Z.leb_spec 0 idx); [|lia].
    destruct (Z.ltb_spec idx (Z.of_nat n)); [|lia].
    cbn. by rewrite Z.mod_small by lia.
Qed.

Lemma position_out_of_range (n : nat) (idx : Z) :
  idx < - Z.of_nat n \/ Z.of_nat n <= idx ->
  Torch2.position n idx = None.
Proof.
  intros Hidx. unfold Torch2.position.
  destruct (Z.ltb_spec idx 0) as [Hneg|Hpos].
  - destruct (Z.leb_spec 0 (Z.of_nat n + idx)); [lia|reflexivity].
  - destruct (Z.ltb_spec idx (Z.of_nat n)); [lia|].
    by rewrite andb_false_r.
Qed.

(** X14.  A dataset constructed with [num_samples = S] and
    [num_nodes = N], whose sampler returns nodes of shape [[S, C, N]]:
    its length is [S], and for every index in [[-S, S)] [__getitem__]
    returns the coordinates of instance [idx mod S] (a negative index
    counts from the end), a dynamic tensor of shape [[1, N]] that is all
    zero, and an empty start location. *)
Theorem dataset_getitem_in_range {Param F : Type} `{TorchFloat F}
    (get_param_nodes : Z -> Z -> Z -> Z -> Param -> Tensor3 F)
    (d : TSPDataset Param) (S C N : nat) (idx : Z) :
  ds_num_samples d = Z.of_nat S ->
  ds_num_nodes d = Z.of_nat N ->
  size3 (get_param_nodes (ds_num_nodes d) (ds_num_samples d) (ds_seed d)
           (ds_num_tiles d) (ds_param d)) = (S, C, N) ->
  - Z.of_nat S <= idx < Z.of_nat S ->
  exists o static dynamic,
    TSPDataset__init__ get_param_nodes d = Ok o
    /\ TSPDataset__len__ o = Z.of_nat S
    /\ TSPDataset__getitem__ o idx = Ok (static, dynamic, [])
    /\ size2 static = (C, N)
    /\ (forall c k,
          at2 static c k
          = at3 (get_param_nodes (ds_num_nodes d) (ds_num_samples d)
                   (ds_seed d) (ds_num_tiles d) (ds_param d))
              (Z.to_nat (idx mod Z.of_nat S)) c k)
    /\ size2 dynamic = (1%nat, N)
    /\ (forall c k, at2 dynamic c k = fzero).
Proof.
  intros HS HN Hshape Hidx.
  unfold TSPDataset__init__, zeros3. rewrite HS, HN.
  destruct (Z.leb_spec 0 (Z.of_nat S)); [|lia].
  destruct (Z.leb_spec 0 (Z.of_nat N)); [|lia].
  cbn [andb Z.leb]. rewrite !Nat2Z.id.
  eexists _, _, _. split; [reflexivity|]. split; [reflexivity|].
  unfold TSPDataset__getitem__, Torch2.select3.
  cbn [ds_dataset ds_dynamic size3 fst snd].
  rewrite <- HS, <- HN, Hshape. cbn [fst snd].
  rewrite (position_in_range S idx Hidx). cbn [mbind option_bind].
  change (Z.to_nat 1) with 1%nat.
  split; [reflexivity|]. repeat split; intros; cbn [at2]; rewrite ?HS;
    reflexivity.
Qed.

Lemma dataset_getitem_in_range_witness :
  exists o static dynamic,
    TSPDataset__init__ (fun _ _ _ _ _ => unit_square 0%R 1%R 3)
      (mk_TSPDataset 4 3 7 1 tt) = Ok o
    /\ TSPDataset__len__ o = Z.of_nat 3
    /\ TSPDataset__getitem__ o (-1) = Ok (static, dynamic, [])
    /\ size2 static = (2%nat, 4%nat)
    /\ (forall c k,
          at2 static c k
          = at3 (unit_square 0%R 1%R 3) (Z.to_nat (-1 mod Z.of_nat 3)) c k)
    /\ size2 dynamic = (1%nat, 4%nat)
    /\ (forall c k, at2 dynamic c k = fzero).
Proof.
  apply (dataset_getitem_in_range
           (fun _ _ _ _ _ => unit_square 0%R 1%R 3)
           (mk_TSPDataset 4 3 7 1 tt) 3 2 4 (-1));
    [reflexivity|reflexivity|reflexivity|cbn; lia].
Defined.

(** X15.  For the same dataset, [__getitem__] with an index outside
    [[-S, S)] raises [IndexError]; in particular every index does on an
    empty dataset. *)
Theorem dataset_getitem_out_of_range {Param F : Type} `{TorchFloat F}
    (get_param_nodes : Z -> Z -> Z -> Z -> Param -> Tensor3 F)
    (d : TSPDataset Param) (S C N : nat) (idx : Z) :
  ds_num_samples d = Z.of_nat S ->
  ds_num_nodes d = Z.of_nat N ->
  size3 (get_param_nodes (ds_num_nodes d) (ds_num_samples d) (ds_seed d)
           (ds_num_tiles d) (ds_param d)) = (S, C, N) ->
  idx < - Z.of_nat S \/ Z.of_nat S <= idx ->
  exists o,
    TSPDataset__init__ get_param_nodes d = Ok o
    /\ TSPDataset__getitem__ o idx = Raise IndexError.
Proof.
  intros HS HN Hshape Hidx.
  unfold TSPDataset__init__, zeros3. rewrite HS, HN.
  destruct (Z.leb_spec 0 (Z.of_nat S)); [|lia].
  destruct (Z.leb_spec 0 (Z.of_nat N)); [|lia].
  cbn [andb Z.leb]. eexists. split; [reflexivity|].
  unfold TSPDataset__getitem__, Torch2.select3.
  cbn [ds_dataset size3 fst snd].
  rewrite <- HS, <- HN, Hshape. cbn [fst snd].
  by rewrite (position_out_of_range S idx Hidx).
Qed.

Lemma dataset_getitem_out_of_range_witness :
  exists o,
    TSPDataset__init__ (fun _ _ _ _ _ => unit_square 0%R 1%R 3)
      (mk_TSPDataset 4 3 7 1 tt) = Ok o
    /\ TSPDataset__getitem__ o 3 = Raise IndexError.
Proof.
  apply (dataset_getitem_out_of_range
           (fun _ _ _ _ _ => unit_square 0%R 1%R 3)
           (mk_TSPDataset 4 3 7 1 tt) 3 2 4 3);
    [reflexivity|reflexivity|reflexivity|cbn; lia].
Defined.

(** ** The renderer *)

(** X16.  [render] lays out a 3 by 3 grid exactly when there are at least
    9 tours and a single plot otherwise, so with at least one tour every
    axis of the grid has a tour to show. *)
Theorem render_grid_size (batch : nat) :
  (num_plots batch = 3%nat <-> (9 <= batch)%nat)
  /\ (num_plots batch = 1%nat <-> (batch < 9)%nat)
  /\ ((1 <= batch)%nat -> (num_plots batch * num_plots batch <= batch)%nat).
Proof.
  unfold num_plots.
  pose proof (Z.sqrt_spec (Z.of_nat batch) ltac:(lia)) as Hs.
  cbv zeta in Hs.
  destruct (Z.leb_spec 3 (Z.sqrt (Z.of_nat batch))) as [Hge|Hlt].
  - assert (9 <= batch)%nat by nia.
    split; [split; [lia|done]|]. split; [split; [done|lia]|]. intros _. lia.
  - assert (batch < 9)%nat by nia.
    split; [split; [done|lia]|]. split; [split; [lia|done]|]. intros ?. lia.
Qed.

Section RenderFacts.
Context {F : Type}.
Implicit Types (static : Tensor3 F) (tour_indices : Tensor2 Z).

Lemma position_nat (n i : nat) :
  (i < n)%nat -> Torch2.position n (Z.of_nat i) = Some i.
Proof.
  intros Hi. rewrite position_in_range by lia.
  rewrite Z.mod_small by lia. by rewrite Nat2Z.id.
Qed.

(** The loop body on a well-formed instance draws the closed line of its
    tour. *)
Lemma render_axis_draws static tour_indices (B C N i : nat) :
  size3 static = (B, C, N) ->
  size2 tour_indices = (B, N) ->
  (2 <= C)%nat -> (1 <= N)%nat -> (i < B)%nat ->
  (forall k, (k < N)%nat -> 0 <= at2 tour_indices i k < Z.of_nat N) ->
  render_axis static tour_indices i
  = Ok (tour_drawing static tour_indices N i).
Proof.
  intros Hst Htr HC HN Hi Hrange.
  unfold render_axis, Torch2.select2, Torch2.select3.
  rewrite Hst, Htr. cbn [fst snd].
  rewrite (position_nat B i Hi). cbn [mbind option_bind].
  unfold Torch2.expand_rows, Torch2.unsqueeze1_0, Torch.expand_dim.
  cbn [size2 size1 fst snd].
  destruct (Nat.eqb_spec 1 C) as [?|_]; [lia|].
  cbn [Nat.eqb mbind option_bind].
  unfold Torch2.cat_columns, Torch2.first_column. cbn [size2 at2 fst snd].
  rewrite Nat.eqb_refl. cbn [mbind option_bind at1].
  unfold Torch2.gather_columns. cbn [size2 at2 fst snd].
  rewrite Nat.leb_refl, all2_true.
  2:{ cbn [fst snd]. intros c k _ Hk.
      assert (forall j, (j < N)%nat ->
                (0 <=? at2 tour_indices i j)
                && (at2 tour_indices i j <? Z.of_nat N) = true) as Hin.
      { intros j Hj. specialize (Hrange j Hj).
        apply andb_true_iff. rewrite Z.leb_le, Z.ltb_lt. lia. }
      destruct (Nat.ltb_spec k N); apply Hin; lia. }
  cbn [andb]. unfold Torch2.row, Torch2.element. cbn [size2 at2 fst snd].
  destruct (Nat.ltb_spec 0 C); [|lia].
  destruct (Nat.ltb_spec 1 C); [|lia].
  replace (1 `min` N)%nat with 1%nat by lia.
  destruct (Nat.ltb_spec 0 (N + 1)); [|lia].
  destruct (Nat.ltb_spec 0 N); [|lia].
  cbn [andb mbind option_bind]. unfold tour_drawing. f_equal.
  cbv zeta. rewrite Nat.Div0.mod_0_l.
  assert (Hpt : forall c k, (k < N + 1)%nat ->
            at3 static i c
              (Z.to_nat (if (k <? N)%nat then at2 tour_indices i k
                         else at2 tour_indices i (k - N)%nat))
            = at3 static i c (Z.to_nat (at2 tour_indices i (k mod N)%nat))).
  { intros c k Hk. destruct (Nat.ltb_spec k N).
    - by rewrite Nat.mod_small by lia.
    - replace k with N by lia. by rewrite Nat.sub_diag, Nat.Div0.mod_same. }
  apply f_equal3; [| |reflexivity];
    apply map_ext_in; intros k Hk; apply in_seq in Hk; apply Hpt; lia.
Qed.

Lemma render_axes_draws static tour_indices (B C N first count : nat) :
  size3 static = (B, C, N) ->
  size2 tour_indices = (B, N) ->
  (2 <= C)%nat -> (1 <= N)%nat -> (first + count <= B)%nat ->
  (forall i k, (i < B)%nat -> (k < N)%nat ->
     0 <= at2 tour_indices i k < Z.of_nat N) ->
  render_axes static tour_indices first count
  = Ok (map (tour_drawing static tour_indices N) (seq first count)).
Proof.
  intros Hst Htr HC HN Hle Hrange. revert first Hle.
  induction count as [|count IH]; intros first Hle; [reflexivity|].
  cbn [render_axes seq map].
  rewrite (render_axis_draws static tour_indices B C N first Hst Htr HC HN)
    by (try lia; intros; apply Hrange; lia).
  rewrite IH by lia. reflexivity.
Qed.

End RenderFacts.

(** X17.  [render] with no tours raises [IndexError]: the single plot it
    lays out asks for tour 0. *)
Theorem render_empty_batch_raises {F : Type}
    (static : Tensor3 F) (tour_indices : Tensor2 Z) (N : nat) :
  size2 tour_indices = (O, N) ->
  render static tour_indices = Raise IndexError.
Proof.
  intros Htr. unfold render. rewrite Htr. cbn [fst].
  change (num_plots 0) with 1%nat. cbn [Nat.mul Nat.add render_axes].
  unfold render_axis, Torch2.select2. rewrite Htr. reflexivity.
Qed.

Lemma render_empty_batch_raises_witness :
  render (unit_square 0%R 1%R 0) (identity_tour 0) = Raise IndexError.
Proof.
  apply (render_empty_batch_raises
           (unit_square 0%R 1%R 0) (identity_tour 0) 0).
  reflexivity.
Defined.

(** X18.  For at least one tour, coordinates of shape [[B, C, N]] with at
    least two coordinate rows, tour indices of shape [[B, N]] in [[0, N)]
    and tours of at least one city, [render] returns normally and draws
    one axis per cell of the grid, axis [i] showing tour [i] as a closed
    line: the cities in visit order and then the first city again, which
    also carries the start marker. *)
Theorem render_draws_closed_tours {F : Type}
    (static : Tensor3 F) (tour_indices : Tensor2 Z) (B C N : nat) :
  size3 static = (B, C, N) ->
  size2 tour_indices = (B, N) ->
  (1 <= B)%nat -> (2 <= C)%nat -> (1 <= N)%nat ->
  (forall i k, (i < B)%nat -> (k < N)%nat ->
     0 <= at2 tour_indices i k < Z.of_nat N) ->
  exists drawings,
    render static tour_indices = Ok drawings
    /\ length drawings = (num_plots B * num_plots B)%nat
    /\ (forall i, (i < num_plots B * num_plots B)%nat ->
          drawings !! i = Some (tour_drawing static tour_indices N i))
    /\ (forall i d, drawings !! i = Some d ->
          length (line_x d) = S N
          /\ length (line_y d) = S N
          /\ line_x d !! N = line_x d !! O
          /\ line_y d !! N = line_y d !! O).
Proof.
  intros Hst Htr HB HC HN Hrange.
  assert (Hgrid : (num_plots B * num_plots B <= B)%nat).
  { unfold num_plots.
    pose proof (Z.sqrt_spec (Z.of_nat B) ltac:(lia)) as Hs. cbv zeta in Hs.
    destruct (Z.leb_spec 3 (Z.sqrt (Z.of_nat B))); [nia|lia]. }
  set (n := num_plots B) in *.
  exists (map (tour_drawing static tour_indices N) (seq 0 (n * n))).
  split.
  { unfold render. rewrite Htr. cbn [fst]. fold n.
    by apply (render_axes_draws static tour_indices B C N 0 (n * n)). }
  split; [by rewrite length_map, length_seq|].
  split.
  - intros i Hi. rewrite list_lookup_fmap, lookup_seq_lt by done.
    reflexivity.
  - intros i d Hd. rewrite list_lookup_fmap in Hd.
    destruct (seq 0 (n * n) !! i) as [j|]; [|discriminate].
    cbn in Hd. injection Hd as <-. unfold tour_drawing.
    cbn [line_x line_y]. rewrite !length_map, !length_seq.
    split; [lia|]. split; [lia|].
    rewrite !list_lookup_fmap, !lookup_seq_lt by lia.
    cbn [fmap option_fmap option_map Nat.add].
    by rewrite Nat.Div0.mod_same, Nat.Div0.mod_0_l.
Qed.

Lemma render_draws_closed_tours_witness :
  exists drawings,
    render (unit_square 0%R 1%R 2) (identity_tour 2) = Ok drawings
    /\ length drawings = (num_plots 2 * num_plots 2)%nat
    /\ (forall i, (i < num_plots 2 * num_plots 2)%nat ->
          drawings !! i
          = Some (tour_drawing (unit_square 0%R 1%R 2) (identity_tour 2) 4 i))
    /\ (forall i d, drawings !! i = Some d ->
          length (line_x d) = 5%nat
          /\ length (line_y d) = 5%nat
          /\ line_x d !! 4%nat = line_x d !! O
          /\ line_y d !! 4%nat = line_y d !! O).
Proof.
  apply (render_draws_closed_tours
           (unit_square 0%R 1%R 2) (identity_tour 2) 2 2 4);
    [reflexivity|reflexivity|lia|lia|lia|].
  intros i k Hi Hk.
  destruct i as [|[|i]]; [| |lia];
    (destruct k as [|[|[|[|k]]]]; [| | | |lia]); cbn; lia.
Defined.

(** X19.  [render] raises [IndexError] when the coordinates have fewer
    than two rows (it plots rows 0 and 1) or the tours have no position
    (the start marker reads the first point), for at least one tour with
    indices in range. *)
Theorem render_degenerate_raises {F : Type}
    (static : Tensor3 F) (tour_indices : Tensor2 Z) (B C N : nat) :
  size3 static = (B, C, N) ->
  size2 tour_indices = (B, N) ->
  (1 <= B)%nat ->
  (C < 2)%nat \/ N = O ->
  (forall k, (k < N)%nat -> 0 <= at2 tour_indices 0 k < Z.of_nat N) ->
  render static tour_indices = Raise IndexError.
Proof.
  intros Hst Htr HB Hdeg Hrange.
  assert (Haxis : render_axis static tour_indices 0 = Raise IndexError).
  { unfold render_axis, Torch2.select2, Torch2.select3.
    rewrite Hst, Htr. cbn [fst snd].
    rewrite (position_nat B 0 HB). cbn [mbind option_bind].
    unfold Torch2.expand_rows, Torch2.unsqueeze1_0, Torch.expand_dim.
    cbn [size2 size1 fst snd].
    assert (exists f,
              (if (1 =? C)%nat then Some (fun i : nat => i)
               else if (1 =? 1)%nat then Some (fun _ : nat => O) else None)
              = Some f) as [f ->]
      by (destruct (1 =? C)%nat; eauto).
    cbn [mbind option_bind].
    unfold Torch2.cat_columns, Torch2.first_column. cbn [size2 at2 fst snd].
    rewrite Nat.eqb_refl. cbn [mbind option_bind at1].
    unfold Torch2.gather_columns. cbn [size2 at2 fst snd].
    rewrite Nat.leb_refl, all2_true.
    2:{ cbn [fst snd]. intros c k _ Hk.
        assert (forall j, (j < N)%nat ->
                  (0 <=? at2 tour_indices 0 j)
                  && (at2 tour_indices 0 j <? Z.of_nat N) = true) as Hin.
        { intros j Hj. specialize (Hrange j Hj).
          apply andb_true_iff. rewrite Z.leb_le, Z.ltb_lt. lia. }
        destruct (Nat.ltb_spec k N); apply Hin; lia. }
    cbn [andb]. unfold Torch2.row, Torch2.element. cbn [size2 at2 fst snd].
    destruct Hdeg as [HC| ->].
    - destruct (Nat.ltb_spec 1 C); [lia|].
      destruct (0 <? C)%nat; reflexivity.
    - cbn [Nat.min Nat.add Nat.ltb Nat.leb]. rewrite !andb_false_r.
      destruct C as [|[|C]]; reflexivity. }
  unfold render. rewrite Htr. cbn [fst].
  unfold num_plots. destruct (3 <=? _);
    cbn [Nat.mul Nat.add render_axes]; by rewrite Haxis.
Qed.

Lemma render_degenerate_raises_witness :
  render (Torch.of_list3 0%R [[[0%R; 1%R; 1%R; 0%R]]]) (identity_tour 1)
  = Raise IndexError.
Proof.
  apply (render_degenerate_raises
           (Torch.of_list3 0%R [[[0%R; 1%R; 1%R; 0%R]]]) (identity_tour 1)
           1 1 4); [reflexivity|reflexivity|lia|left; lia|].
  intros k Hk. destruct k as [|[|[|[|k]]]]; [| | | |lia]; cbn; lia.
Defined.


